(** * commit-pilot: the staged-diff cleaner, the message formatter and the
      command-line flow of [src/commit_pilot/main.py]

    The script is embedded shallowly.  A Python [str] is the list of its
    code points; the pure string work of [generate_commit_message] becomes
    list functions; the calls that touch the outside world
    ([subprocess.run], [print], the summarization pipeline, the
    [questionary] prompts, [sys.exit]) become a small trace-and-exit monad
    run against an environment that fixes what the outside world answers. *)

From Stdlib Require Import List NArith ZArith String Ascii Bool Lia.
Import ListNotations.

Set Implicit Arguments.

(** ** Python strings *)

Module PyStr.

(** A character is a Unicode code point, a string a sequence of them. *)
Definition char : Type := N.
Definition str : Type := list char.

(** The code points of an ASCII literal of the source. *)
Definition lit (s : string) : str :=
  List.map N_of_ascii (list_ascii_of_string s).

Definition LF : char := 10%N.

Fixpoint eqb (a b : str) : bool :=
  match a, b with
  | [], [] => true
  | x :: a', y :: b' => N.eqb x y && eqb a' b'
  | _, _ => false
  end.

Fixpoint eqb_cmd (a b : list str) : bool :=
  match a, b with
  | [], [] => true
  | x :: a', y :: b' => eqb x y && eqb_cmd a' b'
  | _, _ => false
  end.

(** [s.startswith(p)] *)
Fixpoint startswith (s p : str) {struct p} : bool :=
  match p with
  | [] => true
  | x :: p' =>
      match s with
      | [] => false
      | y :: s' => N.eqb x y && startswith s' p'
      end
  end.

(** [s.startswith((p1, ..., pn))]: some member of the tuple is a prefix. *)
Definition startswith_any (s : str) (ps : list str) : bool :=
  existsb (startswith s) ps.

(** [s.split('\n')]: never the empty list; the empty string gives [['']]. *)
Fixpoint split_lines (s : str) : list str :=
  match s with
  | [] => [[]]
  | c :: rest =>
      if N.eqb c LF then [] :: split_lines rest
      else
        match split_lines rest with
        | line :: lines => (c :: line) :: lines
        | [] => [[c]]
        end
  end.

(** ['\n'.join(lines)] *)
Fixpoint join_lines (lines : list str) : str :=
  match lines with
  | [] => []
  | [line] => line
  | line :: more => line ++ LF :: join_lines more
  end.

(** [s[1:]] and [s[:n]] *)
Definition drop_first (s : str) : str := List.tl s.
Definition take (n : nat) (s : str) : str := List.firstn n s.

(** The code points [str.strip()] removes: those for which
    [str.isspace()] holds. *)
Definition isspace (c : char) : bool :=
  ((0x09 <=? c) && (c <=? 0x0D) || (0x1C <=? c) && (c <=? 0x20)
   || (c =? 0x85) || (c =? 0xA0) || (c =? 0x1680)
   || (0x2000 <=? c) && (c <=? 0x200A)
   || (c =? 0x2028) || (c =? 0x2029) || (c =? 0x202F)
   || (c =? 0x205F) || (c =? 0x3000))%N.

Fixpoint lstrip (s : str) : str :=
  match s with
  | [] => []
  | c :: rest => if isspace c then lstrip rest else s
  end.

Definition rstrip (s : str) : str := rev (lstrip (rev s)).

(** [s.strip()] *)
Definition strip (s : str) : str := rstrip (lstrip s).

(** Truth value of a string: [if s], [if not s]. *)
Definition truthy (s : str) : bool :=
  match s with [] => false | _ :: _ => true end.

(** [str.lower()] restricted to the ASCII letters; every other code point
    is left alone.  It is the case mapping the concrete runs below use. *)
Definition ascii_lower_char (c : char) : char :=
  if ((0x41 <=? c) && (c <=? 0x5A))%N then (c + 0x20)%N else c.

Definition ascii_lower (s : str) : str := List.map ascii_lower_char s.

End PyStr.

Import PyStr.

(** ** The diff cleaner and the message formatter
    ([generate_commit_message], its pure part) *)

(** Line 32: the headers whose lines are skipped. *)
Definition headers : list str :=
  [lit "diff --git"; lit "index"; lit "---"; lit "+++"; lit "Binary files"].

(** Line 35: the markers of a content line. *)
Definition markers : list str := [lit "+"; lit "-"].

Definition is_header (line : str) : bool := startswith_any line headers.
Definition is_content (line : str) : bool := startswith_any line markers.

(** Lines 29-37: one turn of the [for] loop on the accumulator
    [cleaned_lines]. *)
Definition clean_step (cleaned_lines : list str) (line : str) : list str :=
  if is_header line then cleaned_lines
  else if is_content line then cleaned_lines ++ [drop_first line]
  else cleaned_lines.

(** Lines 29-37: the whole loop over [diff.split('\n')]. *)
Definition cleaned_lines_of (diff : str) : list str :=
  fold_left clean_step (split_lines diff) [].

(** Line 43. *)
Definition cleaned_diff_of (diff : str) : str :=
  join_lines (cleaned_lines_of diff).

(** Lines 46-47. *)
Definition max_length : nat := 2000.

Definition truncated_diff_of (diff : str) : str :=
  take max_length (cleaned_diff_of diff).

(** Line 41. *)
Definition default_message : str :=
  lit "chore: Update file metadata or permissions".

(** Line 54. *)
Definition instruction : str :=
  lit "summarize the following code changes into a short git commit message: ".

Definition prompt_of (truncated_diff : str) : str :=
  instruction ++ truncated_diff.

(** Line 61. *)
Definition prefixes : list str :=
  [lit "feat:"; lit "fix:"; lit "chore:"; lit "docs:"; lit "style:";
   lit "refactor:"; lit "perf:"; lit "test:"].

Section Formatter.

(** [str.lower()].  Its Unicode case tables are not part of the
    repository, so the case mapping is a parameter of the formatter. *)
Variable lower : str -> str.

(** Line 62: [any(commit_message.lower().startswith(p) for p in prefixes)]. *)
Definition has_prefix (commit_message : str) : bool :=
  existsb (fun p => startswith (lower commit_message) p) prefixes.

(** Lines 58-65, from the summarizer's text to the returned message. *)
Definition format_message (summary_text : str) : str :=
  let commit_message := strip summary_text in
  let commit_message :=
    if negb (has_prefix commit_message)
    then lit "feat: " ++ commit_message
    else commit_message in
  lower commit_message.

End Formatter.

(** ** The outside world: events, answers and the process outcome *)

Module IO.

(** What the script does to the outside world, in the order it does it. *)
Inductive event : Type :=
| Run (command : list str)                      (* subprocess.run(command, ...) *)
| Print (text : str)                            (* print(text) *)
| Summarize (prompt : str)                      (* summarizer(prompt, ...) *)
| Select (question : str) (choices : list str)  (* questionary.select(...).ask() *)
| TextPrompt (question default : str).          (* questionary.text(...).ask() *)

(** How a [subprocess.run(..., check=True)] call ends. *)
Inductive run_result : Type :=
| Completed (stdout : str)
| CalledProcessError      (* the command returned a non-zero status *)
| FileNotFoundError.      (* the executable is not on PATH *)

(** What the outside world answers during one run of the script. *)
Record env : Type := {
  subprocess : list str -> run_result;
  summarizer : str -> str;            (* summary_list[0]['summary_text'] *)
  select_answer : option str;         (* [None] when the prompt is aborted *)
  text_answer : str -> option str     (* the edited text, from the default *)
}.

Inductive exn : Type := ExnFileNotFound | ExnTypeError.

(** How a computation ends: with a value, in [sys.exit(code)], or in an
    exception no handler catches. *)
Inductive outcome (A : Type) : Type :=
| Ret (a : A)
| SysExit (code : Z)
| Uncaught (e : exn).
Arguments Ret {A} a.
Arguments SysExit {A} code.
Arguments Uncaught {A} e.

(** A computation reads the environment and yields its trace and its
    outcome. *)
Definition M (A : Type) : Type := env -> list event * outcome A.

Definition ret {A} (a : A) : M A := fun _ => ([], Ret a).

Definition bind {A B} (m : M A) (k : A -> M B) : M B :=
  fun w =>
    let (t1, o) := m w in
    match o with
    | Ret a => let (t2, o2) := k a w in (t1 ++ t2, o2)
    | SysExit code => (t1, SysExit code)
    | Uncaught e => (t1, Uncaught e)
    end.

Definition print (text : str) : M unit := fun _ => ([Print text], Ret tt).

Definition sys_exit {A} (code : Z) : M A := fun _ => ([], SysExit code).

Definition raise {A} (e : exn) : M A := fun _ => ([], Uncaught e).

(** [subprocess.run]: the two exceptions of the call are handed to the
    caller as results, for its [try]/[except] to match on. *)
Definition subprocess_run (command : list str) : M run_result :=
  fun w => ([Run command], Ret (subprocess w command)).

Definition summarize (prompt : str) : M str :=
  fun w => ([Summarize prompt], Ret (summarizer w prompt)).

Definition questionary_select (question : str) (choices : list str)
  : M (option str) :=
  fun w => ([Select question choices], Ret (select_answer w)).

Definition questionary_text (question default : str) : M (option str) :=
  fun w => ([TextPrompt question default], Ret (text_answer w default)).

(** The exit status of the process: [sys.exit(code)] gives [code], a
    normal return of [main] gives 0, an uncaught exception gives 1. *)
Definition exit_code {A} (o : outcome A) : Z :=
  match o with
  | Ret _ => 0
  | SysExit code => code
  | Uncaught _ => 1
  end.

(** The prompts handed to the summarizer, and the commands run. *)
Fixpoint prompts (t : list event) : list str :=
  match t with
  | [] => []
  | Summarize p :: t' => p :: prompts t'
  | _ :: t' => prompts t'
  end.

Fixpoint commands (t : list event) : list (list str) :=
  match t with
  | [] => []
  | Run c :: t' => c :: commands t'
  | _ :: t' => commands t'
  end.

Fixpoint printed (t : list event) : list str :=
  match t with
  | [] => []
  | Print s :: t' => s :: printed t'
  | _ :: t' => printed t'
  end.

End IO.

Import IO.

Declare Scope io_scope.
Delimit Scope io_scope with io.
Notation "x <- c ;; k" := (bind c (fun x => k))
  (at level 61, c at next level, right associativity) : io_scope.
Notation "c ;; k" := (bind c (fun _ => k))
  (at level 61, right associativity) : io_scope.
Local Open Scope io_scope.

(** ** The script *)

Definition git_diff_command : list str := [lit "git"; lit "diff"; lit "--staged"].

Definition git_commit_command (message : str) : list str :=
  [lit "git"; lit "commit"; lit "-m"; message].

Definition msg_fetch_error : str :=
  lit "commit-pilot: Error fetching staged changes. Ensure you have staged files with 'git add .'".
Definition msg_no_git : str :=
  lit "commit-pilot: Error: Git is not installed or not in your PATH.".
Definition msg_generating : str :=
  lit "commit-pilot: Generating commit message from the following changes.".
Definition msg_commit_ok : str :=
  [LF; 0x2705%N] ++ lit " commit-pilot: Commit successful!".
Definition msg_commit_failed : str :=
  [LF; 0x274C%N] ++ lit " commit-pilot: Git commit failed.".
Definition msg_no_staged : str :=
  lit "commit-pilot: No staged changes found. Please use 'git add' to stage your files.".
Definition msg_suggested : str :=
  LF :: lit "--- commit-pilot: Suggested Commit Message ---".
Definition msg_rule : str := lit "---------------------------------".
Definition msg_cancelled : str := lit "commit-pilot: Commit cancelled.".

(** Lines 10-21. *)
Definition get_staged_diff : M str :=
  let command := git_diff_command in
  result <- subprocess_run command ;;
  match result with
  | Completed stdout => ret stdout
  | CalledProcessError => print msg_fetch_error ;; sys_exit 1
  | FileNotFoundError => print msg_no_git ;; sys_exit 1
  end.

(** Lines 67-75.  Only [CalledProcessError] has a handler here. *)
Definition perform_commit (message : str) : M unit :=
  let command := git_commit_command message in
  result <- subprocess_run command ;;
  match result with
  | Completed _ => print msg_commit_ok
  | CalledProcessError => print msg_commit_failed ;; sys_exit 1
  | FileNotFoundError => raise ExnFileNotFound
  end.

(** A place where Python needs a string: [None] raises there. *)
Definition as_str {A} (v : option str) (k : str -> M A) : M A :=
  match v with
  | Some s => k s
  | None => raise ExnTypeError
  end.

(** [action == "Yes"], [action == "Edit"]. *)
Definition is_choice (action : option str) (choice : string) : bool :=
  match action with
  | Some a => PyStr.eqb a (lit choice)
  | None => false
  end.

Definition question_use : str := lit "Use this commit message?".
Definition question_edit : str := lit "Edit the commit message:".
Definition choices : list str := [lit "Yes"; lit "Edit"; lit "No"].

(** Lines 91-109 of [main]: the confirmation prompt and what follows it. *)
Definition confirm (ai_message : option str) : M unit :=
  action <- questionary_select question_use choices ;;
  if is_choice action "Yes" then
    as_str ai_message perform_commit
  else if is_choice action "Edit" then
    edited_message <- as_str ai_message (questionary_text question_edit) ;;
    match edited_message with
    | Some ((_ :: _) as m) => perform_commit m
    | _ => print msg_cancelled
    end
  else
    print msg_cancelled.

Section Script.

Variable lower : str -> str.

(** Lines 23-65; [None] is the return value for an empty diff. *)
Definition generate_commit_message (diff : str) : M (option str) :=
  if negb (truthy diff) then ret None
  else
    let cleaned_lines := cleaned_lines_of diff in
    match cleaned_lines with
    | [] => ret (Some default_message)
    | _ :: _ =>
        let cleaned_diff := join_lines cleaned_lines in
        let truncated_diff := take max_length cleaned_diff in
        print msg_generating ;;
        let prompt := prompt_of truncated_diff in
        summary_text <- summarize prompt ;;
        ret (Some (format_message lower summary_text))
    end.

(** The f-string of line 88. *)
Definition suggested (ai_message : option str) : str :=
  LF :: match ai_message with Some m => m | None => lit "None" end ++ [LF].

(** Lines 77-109. *)
Definition main : M unit :=
  diff_output <- get_staged_diff ;;
  if negb (truthy diff_output) then
    print msg_no_staged ;; sys_exit 0
  else
    ai_message <- generate_commit_message diff_output ;;
    print msg_suggested ;;
    print (suggested ai_message) ;;
    print msg_rule ;;
    confirm ai_message.

End Script.


(** ** The cleaner as the specification words it
    A line survives when it starts with none of the headers and begins
    with a marker; the survivors lose their first character and are joined
    with line feeds, in the order of the diff. *)

Definition is_kept (line : str) : bool :=
  negb (is_header line) && is_content line.

Definition cleaner_spec (diff : str) : str :=
  join_lines (List.map drop_first (List.filter is_kept (split_lines diff))).

(** ** Concrete runs *)

(** An environment whose git calls succeed with the given staged diff,
    whose summarizer answers [summary] and whose user answers [choice] and
    then [edited]. *)
Definition world (diff summary : str) (choice edited : option str) : env :=
  {| subprocess := fun command =>
       if PyStr.eqb_cmd command git_diff_command then Completed diff
       else Completed [];
     summarizer := fun _ => summary;
     select_answer := choice;
     text_answer := fun _ => edited |}.

(** The same, with a failing call of git: [fetch] is the result of the
    diff command, [commit] of any other command. *)
Definition failing_world (fetch commit : run_result) (summary : str)
    (choice : option str) : env :=
  {| subprocess := fun command =>
       if PyStr.eqb_cmd command git_diff_command then fetch else commit;
     summarizer := fun _ => summary;
     select_answer := choice;
     text_answer := fun _ => None |}.

(** A diff of one added line of 2001 characters. *)
Definition long_diff : str := lit "+" ++ List.repeat 0x61%N 2001.

(** A diff of headers only (the scenario of the specification). *)
Definition metadata_diff : str :=
  lit "diff --git a/x b/x" ++ LF :: lit "index abc..def" ++ LF ::
  lit "--- a/x" ++ LF :: lit "+++ b/x".

(** A diff with one added and one removed line. *)
Definition small_diff : str :=
  lit "diff --git a/x b/x" ++ LF :: lit "--- a/x" ++ LF :: lit "+++ b/x" ++ LF ::
  lit "@@ -1 +1 @@" ++ LF :: lit "-old line" ++ LF :: lit "+new line".

(** * Properties *)

Unset Implicit Arguments.

(** ** Strings *)

Lemma eqb_eq (a b : str) : PyStr.eqb a b = true <-> a = b.
Proof.
  revert b; induction a as [|x a IH]; intros [|y b]; simpl;
    try (split; [discriminate | congruence]); try tauto.
  rewrite andb_true_iff, N.eqb_eq, IH. split.
  - intros [-> ->]; reflexivity.
  - intros E; injection E; auto.
Qed.

Lemma startswith_app (p rest : str) : startswith (p ++ rest) p = true.
Proof.
  induction p as [|x p IH]; simpl; [reflexivity|].
  now rewrite N.eqb_refl, IH.
Qed.

Lemma startswith_iff (s p : str) :
  startswith s p = true <-> exists rest, s = p ++ rest.
Proof.
  split.
  - revert s; induction p as [|x p IH]; intros s H; simpl in *.
    + now exists s.
    + destruct s as [|y s]; [discriminate|].
      apply andb_true_iff in H as [E H]. apply N.eqb_eq in E; subst y.
      destruct (IH _ H) as [rest ->]. now exists rest.
  - intros [rest ->]. apply startswith_app.
Qed.

Lemma startswith_any_iff (s : str) (ps : list str) :
  startswith_any s ps = true <-> exists p rest, In p ps /\ s = p ++ rest.
Proof.
  unfold startswith_any. rewrite existsb_exists. split.
  - intros [p [Hin H]]. apply startswith_iff in H as [rest ->]. eauto.
  - intros [p [rest [Hin ->]]]. exists p. split; [assumption|apply startswith_app].
Qed.

Lemma split_lines_not_nil (s : str) : split_lines s <> [].
Proof.
  destruct s as [|c s]; simpl; [discriminate|].
  destruct (N.eqb c LF); [discriminate|].
  destruct (split_lines s); discriminate.
Qed.

Lemma join_lines_cons (line : str) (more : list str) :
  more <> [] -> join_lines (line :: more) = line ++ LF :: join_lines more.
Proof. destruct more; [congruence|reflexivity]. Qed.

(** Splitting at the line feeds and joining again gives the text back. *)
Lemma join_split_lines (s : str) : join_lines (split_lines s) = s.
Proof.
  induction s as [|c s IH]; [reflexivity|].
  simpl split_lines. destruct (N.eqb c LF) eqn:E.
  - apply N.eqb_eq in E; subst c.
    rewrite join_lines_cons by apply split_lines_not_nil.
    simpl. now rewrite IH.
  - pose proof (split_lines_not_nil s) as NE.
    destruct (split_lines s) as [|line lines]; [congruence|].
    destruct lines as [|l2 lines]; simpl in *; now rewrite <- IH.
Qed.

(** No line of [split_lines] holds a line feed. *)
Lemma split_lines_no_LF (s line : str) :
  In line (split_lines s) -> ~ In LF line.
Proof.
  revert line; induction s as [|c s IH]; simpl; intros line H.
  - destruct H as [<-|[]]. intros [].
  - destruct (N.eqb c LF) eqn:E.
    + destruct H as [<-|H]; [intros []|now apply IH].
    + pose proof (split_lines_not_nil s) as NE.
      destruct (split_lines s) as [|l0 ls]; [congruence|].
      destruct H as [<-|H].
      * intros [->|H0]; [now rewrite N.eqb_refl in E|].
        revert H0. apply IH. now left.
      * apply IH. now right.
Qed.

Lemma lstrip_fixed (s : str) :
  lstrip s = s <-> match s with [] => True | c :: _ => isspace c = false end.
Proof.
  destruct s as [|c s]; simpl; [tauto|].
  destruct (isspace c) eqn:E.
  - split; [|discriminate]. intros H.
    assert (L : forall t : str, (List.length (lstrip t) <= List.length t)%nat).
    { induction t as [|d t IHt]; simpl; [lia|].
      destruct (isspace d); simpl; lia. }
    specialize (L s). rewrite H in L. simpl in L. lia.
  - tauto.
Qed.

(** ** The case mapping
    The three facts about [str.lower()] the formatter's properties rest on,
    shown here for the ASCII mapping. *)

Lemma ascii_lower_char_idem (c : char) :
  ascii_lower_char (ascii_lower_char c) = ascii_lower_char c.
Proof.
  unfold ascii_lower_char.
  destruct ((0x41 <=? c) && (c <=? 0x5A))%N eqn:E; [|now rewrite E].
  apply andb_true_iff in E as [A B].
  apply N.leb_le in A, B.
  replace ((c + 0x20 <=? 0x5A))%N with false; [now rewrite andb_false_r|].
  symmetry. apply N.leb_gt. lia.
Qed.

Lemma ascii_lower_idem (s : str) : ascii_lower (ascii_lower s) = ascii_lower s.
Proof.
  unfold ascii_lower. rewrite map_map. apply map_ext.
  intros c. apply ascii_lower_char_idem.
Qed.

(** No code point from ['!'] to ['~'] is white space. *)
Lemma isspace_printable (c : char) :
  (0x21 <= c <= 0x7E)%N -> isspace c = false.
Proof.
  intros [A B]. unfold isspace.
  assert (F1 : (c <=? 0x0D)%N = false) by (apply N.leb_gt; lia).
  assert (F2 : (c <=? 0x20)%N = false) by (apply N.leb_gt; lia).
  assert (F3 : (0x2000 <=? c)%N = false) by (apply N.leb_gt; lia).
  assert (F4 : (c =? 0x85)%N = false) by (apply N.eqb_neq; lia).
  assert (F5 : (c =? 0xA0)%N = false) by (apply N.eqb_neq; lia).
  assert (F6 : (c =? 0x1680)%N = false) by (apply N.eqb_neq; lia).
  assert (F7 : (c =? 0x2028)%N = false) by (apply N.eqb_neq; lia).
  assert (F8 : (c =? 0x2029)%N = false) by (apply N.eqb_neq; lia).
  assert (F9 : (c =? 0x202F)%N = false) by (apply N.eqb_neq; lia).
  assert (F10 : (c =? 0x205F)%N = false) by (apply N.eqb_neq; lia).
  assert (F11 : (c =? 0x3000)%N = false) by (apply N.eqb_neq; lia).
  rewrite F1, F2, F3, F4, F5, F6, F7, F8, F9, F10, F11.
  now rewrite !andb_false_r.
Qed.

Lemma ascii_lower_char_space (c : char) :
  isspace (ascii_lower_char c) = isspace c.
Proof.
  unfold ascii_lower_char.
  destruct ((0x41 <=? c) && (c <=? 0x5A))%N eqn:E; [|reflexivity].
  apply andb_true_iff in E as [A B]. apply N.leb_le in A, B.
  rewrite !isspace_printable; [reflexivity| |]; lia.
Qed.

Lemma lstrip_ascii_lower (s : str) :
  lstrip (ascii_lower s) = ascii_lower (lstrip s).
Proof.
  induction s as [|c s IH]; [reflexivity|].
  simpl. rewrite ascii_lower_char_space.
  destruct (isspace c); [exact IH|reflexivity].
Qed.

Lemma strip_ascii_lower (s : str) :
  strip (ascii_lower s) = ascii_lower (strip s).
Proof.
  unfold strip, rstrip, ascii_lower.
  fold (ascii_lower s). rewrite lstrip_ascii_lower.
  unfold ascii_lower at 1. rewrite <- map_rev.
  fold (ascii_lower (rev (lstrip s))). rewrite lstrip_ascii_lower.
  unfold ascii_lower. now rewrite map_rev.
Qed.

Lemma ascii_lower_strip_fixed (s : str) :
  strip s = s -> strip (ascii_lower s) = ascii_lower s.
Proof. intros H. now rewrite strip_ascii_lower, H. Qed.

Lemma ascii_lower_feat (s : str) :
  ascii_lower (lit "feat: " ++ s) = lit "feat: " ++ ascii_lower s.
Proof. unfold ascii_lower. now rewrite map_app. Qed.

(** ** The cleaner *)

Lemma is_header_iff (line : str) :
  is_header line = true <-> exists h rest, In h headers /\ line = h ++ rest.
Proof. apply startswith_any_iff. Qed.

Lemma is_content_iff (line : str) :
  is_content line = true <->
  exists c rest, line = c :: rest /\ (c = 0x2B%N \/ c = 0x2D%N).
Proof.
  unfold is_content. rewrite startswith_any_iff. split.
  - intros [p [rest [Hin ->]]].
    destruct Hin as [<-|[<-|[]]]; simpl; eauto.
  - intros [c [rest [-> [->| ->]]]].
    + exists (lit "+"), rest. split; [now left|reflexivity].
    + exists (lit "-"), rest. split; [right; now left|reflexivity].
Qed.

(** The loop appends, to what it has collected, the kept lines without
    their first character. *)
Lemma clean_loop (lines acc : list str) :
  fold_left clean_step lines acc =
  acc ++ List.map drop_first (List.filter is_kept lines).
Proof.
  revert acc; induction lines as [|line lines IH]; intros acc; simpl.
  - now rewrite app_nil_r.
  - rewrite IH. unfold clean_step, is_kept.
    destruct (is_header line); simpl; [reflexivity|].
    destruct (is_content line); simpl; [|reflexivity].
    now rewrite <- app_assoc.
Qed.

Lemma cleaned_lines_of_spec (diff : str) :
  cleaned_lines_of diff =
  List.map drop_first (List.filter is_kept (split_lines diff)).
Proof. unfold cleaned_lines_of. now rewrite clean_loop. Qed.

Lemma split_lines_app (a b : str) :
  split_lines (a ++ LF :: b) = split_lines a ++ split_lines b.
Proof.
  induction a as [|c a IH]; [reflexivity|].
  simpl. destruct (N.eqb c LF); rewrite IH; [reflexivity|].
  pose proof (split_lines_not_nil a) as NE.
  destruct (split_lines a); [congruence|reflexivity].
Qed.

Lemma split_lines_single (line : str) :
  ~ In LF line -> split_lines line = [line].
Proof.
  induction line as [|c line IH]; intros H; [reflexivity|].
  simpl. destruct (N.eqb c LF) eqn:E.
  - apply N.eqb_eq in E. exfalso. apply H. now left.
  - rewrite IH; [reflexivity|]. intros H0. apply H. now right.
Qed.

Lemma starts_header_dashes (line : str) :
  startswith line (lit "---") = true \/ startswith line (lit "+++") = true ->
  is_header line = true /\ is_content line = true.
Proof.
  intros [H|H]; apply startswith_iff in H as [rest ->]; split;
    try (apply is_header_iff; eexists; exists rest; split; [|reflexivity];
         simpl; tauto);
    apply is_content_iff; simpl; eauto.
Qed.

(** ** Claims on the cleaner *)

(** C1.  For every raw diff text the cleaner computes what the
    specification words: the joined text is [cleaner_spec], whose survivors
    are, in the order of the diff, the lines that start with none of the
    five headers and begin with ['+'] or ['-'], each without its first
    character; a line that starts with a header is never kept. *)
Theorem C1_cleaner_keeps_marked_lines (diff : str) :
  cleaned_lines_of diff =
    List.map drop_first (List.filter is_kept (split_lines diff))
  /\ cleaned_diff_of diff = cleaner_spec diff
  /\ (forall line h rest, In h headers -> line = h ++ rest ->
        is_kept line = false)
  /\ (forall line, is_kept line = true <->
        (~ exists h rest, In h headers /\ line = h ++ rest)
        /\ exists c rest, line = c :: rest /\ (c = 0x2B%N \/ c = 0x2D%N)
                          /\ drop_first line = rest).
Proof.
  split; [apply cleaned_lines_of_spec|].
  split; [unfold cleaned_diff_of, cleaner_spec; now rewrite cleaned_lines_of_spec|].
  split.
  - intros line h rest Hin ->. unfold is_kept.
    replace (is_header (h ++ rest)) with true; [reflexivity|].
    symmetry. apply is_header_iff. eauto.
  - intros line. unfold is_kept.
    rewrite andb_true_iff, negb_true_iff, is_content_iff.
    rewrite <- is_header_iff, not_true_iff_false.
    split; intros [Hh [c [rest Hc]]]; (split; [exact Hh|]); exists c, rest.
    + destruct Hc as [-> Hc]. now repeat split.
    + tauto.
Qed.

(** C9.  Header filtering comes first: a line that starts with ['---'] or
    ['+++'] does begin with a marker, yet one turn of the loop leaves the
    collected lines as they are, and so the cleaned lines of a diff are
    those of the diff without that line. *)
Theorem C9_header_filter_precedes_keep (line : str) :
  startswith line (lit "---") = true \/ startswith line (lit "+++") = true ->
  is_content line = true
  /\ (forall cleaned_lines, clean_step cleaned_lines line = cleaned_lines)
  /\ (~ In LF line -> forall before after : str,
        cleaned_lines_of (before ++ LF :: line ++ LF :: after) =
        cleaned_lines_of (before ++ LF :: after)).
Proof.
  intros H. destruct (starts_header_dashes line H) as [Hh Hc].
  split; [exact Hc|]. split.
  - intros acc. unfold clean_step. now rewrite Hh.
  - intros HLF before after.
    rewrite !cleaned_lines_of_spec, !split_lines_app, (split_lines_single line HLF).
    rewrite !filter_app. simpl. unfold is_kept at 2. now rewrite Hh.
Qed.

Lemma C9_witness :
  let line := lit "--- a removed SQL comment" in
  (startswith line (lit "---") = true \/ startswith line (lit "+++") = true)
  /\ is_content line = true
  /\ cleaned_lines_of (lit "-old" ++ LF :: line ++ LF :: lit "+new") =
     [lit "old"; lit "new"].
Proof.
  intros line.
  assert (H : startswith line (lit "---") = true \/
              startswith line (lit "+++") = true) by (left; reflexivity).
  split; [exact H|].
  destruct (C9_header_filter_precedes_keep line H) as [Hc [_ Hd]].
  split; [exact Hc|].
  rewrite Hd; [reflexivity|].
  vm_compute. intuition discriminate.
Defined.

(** ** Stripping *)

Lemma lstrip_idem (s : str) : lstrip (lstrip s) = lstrip s.
Proof.
  induction s as [|c s IH]; [reflexivity|].
  simpl. destruct (isspace c) eqn:E; [exact IH|].
  simpl. now rewrite E.
Qed.

(** What [lstrip] removes is a run of white space in front. *)
Lemma lstrip_split (s : str) :
  exists spaces, s = spaces ++ lstrip s /\ Forall (fun c => isspace c = true) spaces.
Proof.
  induction s as [|c s [sp [E F]]].
  - exists []. split; [reflexivity|constructor].
  - simpl. destruct (isspace c) eqn:Ec.
    + exists (c :: sp). split; [simpl; congruence|now constructor].
    + exists []. split; [reflexivity|constructor].
Qed.

Lemma lstrip_rstrip (s : str) : lstrip s = s -> lstrip (rstrip s) = rstrip s.
Proof.
  intros H. unfold rstrip.
  destruct (lstrip_split (rev s)) as [sp [E _]].
  apply (f_equal (@rev char)) in E. rewrite rev_involutive, rev_app_distr in E.
  destruct (rev (lstrip (rev s))) as [|c r]; [reflexivity|].
  apply lstrip_fixed. rewrite E in H. apply lstrip_fixed in H. exact H.
Qed.

Lemma strip_idem (s : str) : strip (strip s) = strip s.
Proof.
  unfold strip.
  rewrite (lstrip_rstrip (lstrip s) (lstrip_idem s)).
  unfold rstrip. now rewrite rev_involutive, lstrip_idem.
Qed.

(** ** Message generation *)

Lemma cleaned_lines_of_empty : cleaned_lines_of [] = [].
Proof. reflexivity. Qed.

(** With a surviving line the summarizer is called once, on the prompt
    built from the truncated cleaned diff, and its text is formatted. *)
Lemma generate_summarizes (lower : str -> str) (w : env) (diff : str) :
  cleaned_lines_of diff <> [] ->
  generate_commit_message lower diff w =
    ([Print msg_generating; Summarize (prompt_of (truncated_diff_of diff))],
     Ret (Some (format_message lower
                  (summarizer w (prompt_of (truncated_diff_of diff)))))).
Proof.
  intros NE. unfold generate_commit_message, truncated_diff_of, cleaned_diff_of.
  destruct diff as [|c diff]; [now rewrite cleaned_lines_of_empty in NE|].
  cbn [truthy negb].
  destruct (cleaned_lines_of (c :: diff)) as [|l ls]; [congruence|].
  reflexivity.
Qed.

Lemma generate_default (lower : str -> str) (w : env) (diff : str) :
  diff <> [] -> cleaned_lines_of diff = [] ->
  generate_commit_message lower diff w = ([], Ret (Some default_message)).
Proof.
  intros NE E. unfold generate_commit_message.
  destruct diff as [|c diff]; [congruence|].
  cbn [truthy negb]. now rewrite E.
Qed.

(** C2.  A non-empty diff none of whose lines survives the cleaning gives
    the literal default message with an empty trace: nothing is printed,
    the summarizer is not called, and the message keeps its capital U
    whatever the case mapping is, as no formatting is applied. *)
Theorem C2_no_content_gives_default_message
    (lower : str -> str) (w : env) (diff : str) :
  diff <> [] ->
  Forall (fun line => is_header line = true \/ is_content line = false)
         (split_lines diff) ->
  generate_commit_message lower diff w = ([], Ret (Some default_message))
  /\ prompts (fst (generate_commit_message lower diff w)) = []
  /\ default_message = lit "chore: Update file metadata or permissions"
  /\ In 0x55%N default_message.
Proof.
  intros NE HF.
  assert (E : cleaned_lines_of diff = []).
  { rewrite cleaned_lines_of_spec.
    induction HF as [|line lines [Hl|Hl] _ IH]; simpl; [reflexivity| |];
      unfold is_kept; rewrite Hl; simpl; [exact IH|].
    rewrite andb_false_r. exact IH. }
  rewrite (generate_default lower w diff NE E).
  repeat split. vm_compute. tauto.
Qed.

Lemma C2_witness :
  metadata_diff <> []
  /\ generate_commit_message ascii_lower metadata_diff
       (world metadata_diff [] None None) =
     ([], Ret (Some default_message))
  /\ format_message ascii_lower default_message <> default_message.
Proof.
  assert (NE : metadata_diff <> []) by (vm_compute; discriminate).
  split; [exact NE|]. split.
  - apply (C2_no_content_gives_default_message ascii_lower
             (world metadata_diff [] None None) metadata_diff NE).
    vm_compute. repeat constructor.
  - vm_compute. discriminate.
Defined.

(** C3.  When the joined cleaned diff is longer than 2000 characters, the
    one prompt handed to the summarizer is the fixed instruction followed
    by exactly the first 2000 characters of the cleaned diff; what lies
    beyond them is not part of the prompt. *)
Theorem C3_long_diff_is_truncated
    (lower : str -> str) (w : env) (diff : str) :
  (List.length (cleaned_diff_of diff) > 2000)%nat ->
  let forwarded := List.firstn 2000 (cleaned_diff_of diff) in
  prompts (fst (generate_commit_message lower diff w)) =
    [lit "summarize the following code changes into a short git commit message: "
       ++ forwarded]
  /\ List.length forwarded = 2000%nat
  /\ cleaned_diff_of diff = forwarded ++ List.skipn 2000 (cleaned_diff_of diff)
  /\ List.skipn 2000 (cleaned_diff_of diff) <> [].
Proof.
  intros L forwarded.
  assert (NE : cleaned_lines_of diff <> []).
  { intros E. unfold cleaned_diff_of in L. rewrite E in L. simpl in L. lia. }
  rewrite (generate_summarizes lower w diff NE).
  split; [reflexivity|]. split; [|split].
  - subst forwarded. rewrite length_firstn. lia.
  - subst forwarded. now rewrite firstn_skipn.
  - intros E. apply (f_equal (@List.length char)) in E.
    rewrite length_skipn in E. simpl in E. lia.
Qed.

Lemma C3_witness :
  (List.length (cleaned_diff_of long_diff) > 2000)%nat
  /\ prompts (fst (generate_commit_message ascii_lower long_diff
                     (world long_diff (lit "Add A") None None))) =
     [instruction ++ List.repeat 0x61%N 2000].
Proof.
  assert (L : (List.length (cleaned_diff_of long_diff) > 2000)%nat)
    by (vm_compute; lia).
  split; [exact L|].
  destruct (C3_long_diff_is_truncated ascii_lower
              (world long_diff (lit "Add A") None None) long_diff L) as [E _].
  rewrite E. vm_compute. reflexivity.
Defined.

(** ** The formatter *)

Section FormatterFacts.

Variable lower : str -> str.

(** Three facts about [str.lower()], stated where they are used:
    lower-casing twice is lower-casing once; a text without white space at
    its ends has none after lower-casing; the ASCII text ["feat: "] in front
    is left as it is and does not change how the rest is lower-cased. *)
Hypothesis lower_idem : forall s, lower (lower s) = lower s.
Hypothesis lower_strip : forall s, strip s = s -> strip (lower s) = lower s.
Hypothesis lower_feat :
  forall s, lower (lit "feat: " ++ s) = lit "feat: " ++ lower s.

Lemma has_prefix_iff (commit_message : str) :
  has_prefix lower commit_message = true <->
  exists p, In p prefixes /\ startswith (lower commit_message) p = true.
Proof. unfold has_prefix. apply existsb_exists. Qed.

Lemma has_prefix_false_iff (commit_message : str) :
  has_prefix lower commit_message = false <->
  forall p, In p prefixes -> startswith (lower commit_message) p = false.
Proof.
  unfold has_prefix. rewrite <- not_true_iff_false, existsb_exists. split.
  - intros H p Hin. apply not_true_iff_false. intros E. apply H. eauto.
  - intros H [p [Hin E]]. rewrite (H p Hin) in E. discriminate.
Qed.

(** C4.  When the trimmed summary does not start, once lower-cased, with
    any of the eight prefixes, the formatter returns the lower-casing of
    ["feat: "] followed by the trimmed summary. *)
Theorem C4_missing_prefix_gets_feat (summary_text : str) :
  (forall p, In p prefixes ->
     startswith (lower (strip summary_text)) p = false) ->
  format_message lower summary_text =
    lower (lit "feat: " ++ strip summary_text).
Proof.
  intros H. apply has_prefix_false_iff in H.
  unfold format_message. now rewrite H.
Qed.

(** C5.  When the trimmed summary starts, once lower-cased, with one of the
    eight prefixes, the formatter adds nothing and returns the lower-cased
    trimmed summary; formatting that message again gives it back. *)
Theorem C5_prefixed_summary_only_lowered (summary_text : str) :
  (exists p, In p prefixes /\
     startswith (lower (strip summary_text)) p = true) ->
  format_message lower summary_text = lower (strip summary_text)
  /\ format_message lower (format_message lower summary_text) =
     format_message lower summary_text.
Proof.
  intros H. apply has_prefix_iff in H.
  assert (E : format_message lower summary_text = lower (strip summary_text)).
  { unfold format_message. now rewrite H. }
  split; [exact E|]. rewrite E.
  unfold format_message.
  rewrite (lower_strip (strip summary_text) (strip_idem summary_text)).
  unfold has_prefix in *. rewrite lower_idem, H. simpl. apply lower_idem.
Qed.

(** The formatted message always starts with one of the prefixes and is
    its own lower-casing. *)
Lemma format_message_prefixed_lower (summary_text : str) :
  (exists p, In p prefixes /\
     startswith (format_message lower summary_text) p = true)
  /\ lower (format_message lower summary_text) =
     format_message lower summary_text.
Proof.
  split.
  - unfold format_message.
    destruct (has_prefix lower (strip summary_text)) eqn:E; cbn [negb].
    + now apply has_prefix_iff.
    + exists (lit "feat:"). split; [now left|].
      rewrite lower_feat. reflexivity.
  - unfold format_message. apply lower_idem.
Qed.

(** C10.  For a non-empty diff, message generation returns a message that
    starts with one of the eight prefixes; it is the default message when
    no line survives the cleaning, and otherwise it is entirely lower-case
    (its own lower-casing). *)
Theorem C10_message_is_prefixed (w : env) (diff : str) :
  diff <> [] ->
  exists message,
    snd (generate_commit_message lower diff w) = Ret (Some message)
    /\ (exists p, In p prefixes /\ startswith message p = true)
    /\ (cleaned_lines_of diff = [] -> message = default_message)
    /\ (cleaned_lines_of diff <> [] -> lower message = message).
Proof.
  intros NE. destruct (cleaned_lines_of diff) as [|l ls] eqn:E.
  - exists default_message. rewrite (generate_default lower w diff NE E).
    split; [reflexivity|]. split; [|split; [reflexivity|congruence]].
    exists (lit "chore:"). split; [|reflexivity]. simpl. tauto.
  - assert (NE' : cleaned_lines_of diff <> []) by congruence.
    rewrite (generate_summarizes lower w diff NE').
    eexists. split; [reflexivity|].
    destruct (format_message_prefixed_lower
                (summarizer w (prompt_of (truncated_diff_of diff)))) as [P L].
    split; [exact P|]. split; [discriminate|]. intros _. exact L.
Qed.

End FormatterFacts.

Lemma C4_witness :
  let summary := lit "  Add Retry to the fetcher " in
  (forall p, In p prefixes ->
     startswith (ascii_lower (strip summary)) p = false)
  /\ format_message ascii_lower summary = lit "feat: add retry to the fetcher".
Proof.
  intros summary.
  assert (H : forall p, In p prefixes ->
                startswith (ascii_lower (strip summary)) p = false).
  { intros p Hin. simpl in Hin.
    repeat (destruct Hin as [<-|Hin]; [vm_compute; reflexivity|]).
    destruct Hin. }
  split; [exact H|].
  rewrite (C4_missing_prefix_gets_feat ascii_lower summary H).
  vm_compute. reflexivity.
Defined.

Lemma C5_witness :
  let summary := lit " Fix: Handle EMPTY diff" in
  (exists p, In p prefixes /\
     startswith (ascii_lower (strip summary)) p = true)
  /\ format_message ascii_lower summary = lit "fix: handle empty diff"
  /\ format_message ascii_lower (lit "fix: handle empty diff") =
     lit "fix: handle empty diff".
Proof.
  intros summary.
  assert (H : exists p, In p prefixes /\
                startswith (ascii_lower (strip summary)) p = true).
  { exists (lit "fix:"). split; [simpl; tauto|vm_compute; reflexivity]. }
  split; [exact H|].
  destruct (C5_prefixed_summary_only_lowered ascii_lower
              ascii_lower_idem ascii_lower_strip_fixed summary H) as [E I].
  assert (V : format_message ascii_lower summary = lit "fix: handle empty diff").
  { rewrite E. vm_compute. reflexivity. }
  split; [exact V|]. rewrite V in I. exact I.
Defined.

Lemma C10_witness :
  small_diff <> []
  /\ exists message,
       snd (generate_commit_message ascii_lower small_diff
              (world small_diff (lit "Replace old line") None None)) =
       Ret (Some message)
       /\ (exists p, In p prefixes /\ startswith message p = true)
       /\ (cleaned_lines_of small_diff = [] -> message = default_message)
       /\ (cleaned_lines_of small_diff <> [] -> ascii_lower message = message).
Proof.
  assert (NE : small_diff <> []) by (vm_compute; discriminate).
  split; [exact NE|].
  exact (C10_message_is_prefixed ascii_lower ascii_lower_idem ascii_lower_feat
           (world small_diff (lit "Replace old line") None None) small_diff NE).
Defined.

(** ** The command-line flow *)

Lemma get_staged_diff_run (w : env) :
  get_staged_diff w =
  match subprocess w git_diff_command with
  | Completed stdout => ([Run git_diff_command], Ret stdout)
  | CalledProcessError =>
      ([Run git_diff_command; Print msg_fetch_error], SysExit 1%Z)
  | FileNotFoundError =>
      ([Run git_diff_command; Print msg_no_git], SysExit 1%Z)
  end.
Proof.
  unfold get_staged_diff, bind, subprocess_run.
  destruct (subprocess w git_diff_command); reflexivity.
Qed.

Lemma perform_commit_run (message : str) (w : env) :
  perform_commit message w =
  match subprocess w (git_commit_command message) with
  | Completed _ => ([Run (git_commit_command message); Print msg_commit_ok], Ret tt)
  | CalledProcessError =>
      ([Run (git_commit_command message); Print msg_commit_failed], SysExit 1%Z)
  | FileNotFoundError =>
      ([Run (git_commit_command message)], Uncaught ExnFileNotFound)
  end.
Proof.
  unfold perform_commit, bind, subprocess_run.
  destruct (subprocess w (git_commit_command message)); reflexivity.
Qed.

(** A failed fetch ends [main] where [get_staged_diff] ends. *)
Lemma main_fetch_failed (lower : str -> str) (w : env) :
  (forall stdout, subprocess w git_diff_command <> Completed stdout) ->
  main lower w = (fst (get_staged_diff w), SysExit 1%Z).
Proof.
  intros H. unfold main, bind. rewrite get_staged_diff_run.
  destruct (subprocess w git_diff_command) as [out| |];
    [now specialize (H out)|reflexivity|reflexivity].
Qed.

(** For a non-empty diff, generation returns a message and runs no
    command. *)
Lemma generate_shape (lower : str -> str) (w : env) (diff : str) :
  diff <> [] ->
  exists trace message,
    generate_commit_message lower diff w = (trace, Ret (Some message))
    /\ commands trace = [] /\ (forall c, ~ In (Run c) trace).
Proof.
  intros NE. destruct (cleaned_lines_of diff) as [|l ls] eqn:E.
  - rewrite (generate_default lower w diff NE E).
    do 2 eexists. split; [reflexivity|]. split; [reflexivity|]. intros c [].
  - rewrite (generate_summarizes lower w diff) by congruence.
    do 2 eexists. split; [reflexivity|]. split; [reflexivity|].
    intros c [H|[H|[]]]; discriminate.
Qed.

(** [main] after a fetch that gave a non-empty diff. *)
Lemma main_after_fetch (lower : str -> str) (w : env) (diff : str)
    (trace : list event) (message : str) :
  subprocess w git_diff_command = Completed diff ->
  diff <> [] ->
  generate_commit_message lower diff w = (trace, Ret (Some message)) ->
  main lower w =
    (Run git_diff_command :: trace ++
       Print msg_suggested :: Print (suggested (Some message)) ::
       Print msg_rule :: fst (confirm (Some message) w),
     snd (confirm (Some message) w)).
Proof.
  intros Hf NE Hg. unfold main, bind. rewrite get_staged_diff_run, Hf.
  destruct diff as [|c diff]; [congruence|]. cbn [truthy negb].
  rewrite Hg. unfold print.
  destruct (confirm (Some message) w) as [t o]. reflexivity.
Qed.

Lemma commands_app (t1 t2 : list event) :
  commands (t1 ++ t2) = commands t1 ++ commands t2.
Proof.
  induction t1 as [|e t1 IH]; [reflexivity|].
  destruct e; simpl; now rewrite IH.
Qed.

Lemma printed_app (t1 t2 : list event) :
  printed (t1 ++ t2) = printed t1 ++ printed t2.
Proof.
  induction t1 as [|e t1 IH]; [reflexivity|].
  destruct e; simpl; now rewrite IH.
Qed.

Lemma prompts_app (t1 t2 : list event) :
  prompts (t1 ++ t2) = prompts t1 ++ prompts t2.
Proof.
  induction t1 as [|e t1 IH]; [reflexivity|].
  destruct e; simpl; now rewrite IH.
Qed.

Lemma in_commands (c : list str) (t : list event) :
  In (Run c) t <-> In c (commands t).
Proof.
  induction t as [|e t IH]; simpl; [tauto|].
  destruct e; simpl; rewrite <- IH; split;
    try (intros [H|H]; [discriminate|tauto]); try tauto.
  - intros [H|H]; [left; congruence|tauto].
  - intros [H|H]; [left; congruence|tauto].
Qed.

(** The confirmation step when the user declines, or edits the message
    down to nothing. *)
Lemma confirm_cancelled (message : str) (w : env) :
  select_answer w = Some (lit "No")
  \/ (select_answer w = Some (lit "Edit")
      /\ text_answer w message = Some []) ->
  exists prompts_shown,
    confirm (Some message) w = (prompts_shown ++ [Print msg_cancelled], Ret tt)
    /\ commands prompts_shown = [] /\ printed prompts_shown = [].
Proof.
  unfold confirm, bind, questionary_select, as_str, questionary_text, print.
  intros [H|[H Ht]]; rewrite H.
  - exists [Select question_use choices]. repeat split.
  - change (is_choice (Some (lit "Edit")) "Yes") with false.
    change (is_choice (Some (lit "Edit")) "Edit") with true.
    cbn beta iota. rewrite Ht.
    exists [Select question_use choices; TextPrompt question_edit message].
    repeat split.
Qed.

Lemma commit_is_not_diff (message : str) :
  git_commit_command message <> git_diff_command.
Proof. unfold git_commit_command, git_diff_command. intros H. discriminate H. Qed.

(** C6.  When the fetched staged diff is the empty string, [main] runs the
    diff command, prints the notice and exits with code 0; the summarizer
    is not called and no commit command is run. *)
Theorem C6_no_staged_changes_exit_0 (lower : str -> str) (w : env) :
  subprocess w git_diff_command = Completed [] ->
  main lower w = ([Run git_diff_command; Print msg_no_staged], SysExit 0%Z)
  /\ exit_code (snd (main lower w)) = 0%Z
  /\ printed (fst (main lower w)) = [msg_no_staged]
  /\ prompts (fst (main lower w)) = []
  /\ (forall message,
        ~ In (Run (git_commit_command message)) (fst (main lower w))).
Proof.
  intros H.
  assert (E : main lower w =
              ([Run git_diff_command; Print msg_no_staged], SysExit 0%Z)).
  { unfold main, bind. rewrite get_staged_diff_run, H. reflexivity. }
  rewrite E. repeat split.
  intros message X. apply in_commands in X. cbn [commands In] in X.
  destruct X as [X|[]]. symmetry in X. now apply commit_is_not_diff in X.
Qed.

Lemma C6_witness :
  subprocess (world [] (lit "unused") (Some (lit "Yes")) None)
    git_diff_command = Completed []
  /\ exit_code (snd (main ascii_lower
                       (world [] (lit "unused") (Some (lit "Yes")) None))) = 0%Z
  /\ fst (main ascii_lower (world [] (lit "unused") (Some (lit "Yes")) None)) =
     [Run git_diff_command; Print msg_no_staged].
Proof.
  assert (H : subprocess (world [] (lit "unused") (Some (lit "Yes")) None)
                git_diff_command = Completed []) by reflexivity.
  split; [exact H|].
  destruct (C6_no_staged_changes_exit_0 ascii_lower _ H) as [E [X _]].
  split; [exact X|]. now rewrite E.
Defined.

(** C7.  After a fetch that gave a non-empty diff, when the user answers
    "No", or answers "Edit" and submits an empty text, [main] prints the
    cancellation notice last, returns normally (exit code 0), and the only
    command it has run is the diff command: no commit command is run. *)
Theorem C7_declined_commit_is_cancelled
    (lower : str -> str) (w : env) (diff : str) :
  subprocess w git_diff_command = Completed diff ->
  diff <> [] ->
  select_answer w = Some (lit "No")
  \/ (select_answer w = Some (lit "Edit")
      /\ forall message,
           snd (generate_commit_message lower diff w) = Ret (Some message) ->
           text_answer w message = Some []) ->
  snd (main lower w) = Ret tt
  /\ exit_code (snd (main lower w)) = 0%Z
  /\ last (printed (fst (main lower w))) [] = msg_cancelled
  /\ commands (fst (main lower w)) = [git_diff_command]
  /\ (forall message,
        ~ In (Run (git_commit_command message)) (fst (main lower w))).
Proof.
  intros Hf NE Hc.
  destruct (generate_shape lower w diff NE) as [trace [message [Hg [Ct _]]]].
  assert (Hc' : select_answer w = Some (lit "No")
                \/ (select_answer w = Some (lit "Edit")
                    /\ text_answer w message = Some [])).
  { destruct Hc as [Hc|[Hc Ht]]; [now left|right]. split; [exact Hc|].
    apply Ht. now rewrite Hg. }
  destruct (confirm_cancelled message w Hc') as [shown [E [Cs Ps]]].
  rewrite (main_after_fetch lower w diff trace message Hf NE Hg), E.
  cbn [fst snd].
  assert (Cm : commands
                 (Run git_diff_command :: trace ++
                    Print msg_suggested :: Print (suggested (Some message)) ::
                    Print msg_rule :: shown ++ [Print msg_cancelled]) =
               [git_diff_command]).
  { cbn [commands]. rewrite commands_app. cbn [commands].
    rewrite commands_app, Ct, Cs. reflexivity. }
  split; [reflexivity|]. split; [reflexivity|]. split; [|split].
  - cbn [printed]. rewrite printed_app. cbn [printed].
    rewrite printed_app, Ps. cbn [printed app].
    change (printed trace ++ msg_suggested :: suggested (Some message)
              :: msg_rule :: [msg_cancelled])
      with (printed trace ++ [msg_suggested; suggested (Some message); msg_rule]
              ++ [msg_cancelled]).
    rewrite app_assoc. apply last_last.
  - exact Cm.
  - intros m X. apply in_commands in X. rewrite Cm in X.
    destruct X as [X|[]]. symmetry in X. now apply commit_is_not_diff in X.
Qed.

Lemma C7_witness :
  let declined := world small_diff (lit "Replace old line") (Some (lit "No")) None in
  let emptied :=
    world small_diff (lit "Replace old line") (Some (lit "Edit")) (Some []) in
  exit_code (snd (main ascii_lower declined)) = 0%Z
  /\ exit_code (snd (main ascii_lower emptied)) = 0%Z
  /\ commands (fst (main ascii_lower declined)) = [git_diff_command]
  /\ commands (fst (main ascii_lower emptied)) = [git_diff_command].
Proof.
  intros declined emptied.
  assert (NE : small_diff <> []) by (vm_compute; discriminate).
  destruct (C7_declined_commit_is_cancelled ascii_lower declined small_diff
              eq_refl NE (or_introl eq_refl)) as [_ [X1 [_ [C1 _]]]].
  destruct (C7_declined_commit_is_cancelled ascii_lower emptied small_diff
              eq_refl NE (or_intror (conj eq_refl (fun _ _ => eq_refl))))
    as [_ [X2 [_ [C2 _]]]].
  repeat split; assumption.
Defined.

(** C8.  The three fatal failures.  When git is not on PATH, or the diff
    command returns a non-zero status, the fetch step runs the diff command
    once, prints its message and exits with code 1, and so does [main].
    When the commit command returns a non-zero status, the commit step runs
    it once, prints its message and exits with code 1, and so does [main]
    when the user has accepted the message.  No command is run twice. *)
Theorem C8_fatal_failures_exit_1 (lower : str -> str) (w : env) :
  (subprocess w git_diff_command = FileNotFoundError ->
     get_staged_diff w =
       ([Run git_diff_command; Print msg_no_git], SysExit 1%Z)
     /\ main lower w = ([Run git_diff_command; Print msg_no_git], SysExit 1%Z))
  /\ (subprocess w git_diff_command = CalledProcessError ->
        get_staged_diff w =
          ([Run git_diff_command; Print msg_fetch_error], SysExit 1%Z)
        /\ main lower w =
           ([Run git_diff_command; Print msg_fetch_error], SysExit 1%Z))
  /\ (forall message,
        subprocess w (git_commit_command message) = CalledProcessError ->
        perform_commit message w =
          ([Run (git_commit_command message); Print msg_commit_failed],
           SysExit 1%Z))
  /\ (forall diff message,
        subprocess w git_diff_command = Completed diff ->
        diff <> [] ->
        snd (generate_commit_message lower diff w) = Ret (Some message) ->
        select_answer w = Some (lit "Yes") ->
        subprocess w (git_commit_command message) = CalledProcessError ->
        exit_code (snd (main lower w)) = 1%Z
        /\ last (printed (fst (main lower w))) [] = msg_commit_failed
        /\ commands (fst (main lower w)) =
           [git_diff_command; git_commit_command message]).
Proof.
  split; [|split; [|split]].
  - intros H. rewrite main_fetch_failed by (rewrite H; discriminate).
    rewrite get_staged_diff_run, H. now split.
  - intros H. rewrite main_fetch_failed by (rewrite H; discriminate).
    rewrite get_staged_diff_run, H. now split.
  - intros message H. now rewrite perform_commit_run, H.
  - intros diff message Hf NE Hm Hy Hc.
    destruct (generate_shape lower w diff NE) as [trace [m [Hg [Ct _]]]].
    rewrite Hg in Hm. cbn [snd] in Hm. injection Hm as ->.
    rewrite (main_after_fetch lower w diff trace message Hf NE Hg).
    assert (E : confirm (Some message) w =
                ([Select question_use choices;
                  Run (git_commit_command message);
                  Print msg_commit_failed], SysExit 1%Z)).
    { unfold confirm, bind, questionary_select, as_str. rewrite Hy.
      change (is_choice (Some (lit "Yes")) "Yes") with true. cbn iota.
      now rewrite perform_commit_run, Hc. }
    rewrite E. cbn [fst snd]. split; [reflexivity|]. split.
    + cbn [printed]. rewrite printed_app. cbn [printed].
      change (printed trace ++ msg_suggested :: suggested (Some message)
                :: msg_rule :: [msg_commit_failed])
        with (printed trace ++
                [msg_suggested; suggested (Some message); msg_rule]
                ++ [msg_commit_failed]).
      rewrite app_assoc. apply last_last.
    + cbn [commands]. rewrite commands_app, Ct. reflexivity.
Qed.

Lemma C8_witness :
  let no_git := failing_world FileNotFoundError (Completed []) [] None in
  let bad_diff := failing_world CalledProcessError (Completed []) [] None in
  let bad_commit :=
    failing_world (Completed small_diff) CalledProcessError
      (lit "Replace old line") (Some (lit "Yes")) in
  main ascii_lower no_git =
    ([Run git_diff_command; Print msg_no_git], SysExit 1%Z)
  /\ main ascii_lower bad_diff =
     ([Run git_diff_command; Print msg_fetch_error], SysExit 1%Z)
  /\ exit_code (snd (main ascii_lower bad_commit)) = 1%Z
  /\ commands (fst (main ascii_lower bad_commit)) =
     [git_diff_command; git_commit_command (lit "feat: replace old line")].
Proof.
  intros no_git bad_diff bad_commit.
  destruct (C8_fatal_failures_exit_1 ascii_lower no_git) as [A _].
  destruct (C8_fatal_failures_exit_1 ascii_lower bad_diff) as [_ [B _]].
  destruct (C8_fatal_failures_exit_1 ascii_lower bad_commit) as [_ [_ [_ C]]].
  split; [apply (A eq_refl)|]. split; [apply (B eq_refl)|].
  assert (NE : small_diff <> []) by (vm_compute; discriminate).
  destruct (C small_diff (lit "feat: replace old line") eq_refl NE)
    as [X [_ Y]]; [vm_compute; reflexivity|reflexivity|reflexivity|].
  split; assumption.
Defined.

(** An accepted edit commits the edited text, whole. *)
Example edited_message_is_committed :
  commands (fst (main ascii_lower
                   (world small_diff (lit "Replace old line")
                      (Some (lit "Edit")) (Some (lit "fix: typo"))))) =
  [git_diff_command; git_commit_command (lit "fix: typo")].
Proof. vm_compute. reflexivity. Qed.

(** * Further properties of the code *)

(** ** More on the cleaner *)

(** X1.  The cleaner works line by line: the cleaned lines of two texts
    joined by a line feed are the cleaned lines of the first followed by
    those of the second. *)
Theorem X1_cleaner_distributes_over_lines (a b : str) :
  cleaned_lines_of (a ++ LF :: b) = cleaned_lines_of a ++ cleaned_lines_of b.
Proof.
  rewrite !cleaned_lines_of_spec, split_lines_app, filter_app.
  apply map_app.
Qed.

Lemma content_line_header (c : char) (rest : str) :
  c = 0x2B%N \/ c = 0x2D%N ->
  is_header (c :: rest) =
  startswith (c :: rest) (lit "---") || startswith (c :: rest) (lit "+++").
Proof.
  intros [-> | ->]; unfold is_header, startswith_any, headers;
    cbn [existsb];
    match goal with
    | |- context [startswith (?x :: rest) (lit "diff --git")] =>
        change (startswith (x :: rest) (lit "diff --git")) with false;
        change (startswith (x :: rest) (lit "index")) with false;
        change (startswith (x :: rest) (lit "Binary files")) with false
    end;
    cbn [orb]; now rewrite !orb_false_r.
Qed.

(** X2.  The only changed lines the cleaner loses are those that start with
    ['---'] or ['+++']: a line that begins with a marker is dropped exactly
    when it starts with one of these two headers; the other three headers
    never match a line that begins with a marker. *)
Theorem X2_content_line_lost_iff_dashes (line : str) :
  is_content line = true ->
  (is_kept line = false <->
   startswith line (lit "---") = true \/ startswith line (lit "+++") = true).
Proof.
  intros Hc. unfold is_kept. rewrite Hc, andb_true_r, negb_false_iff.
  apply is_content_iff in Hc as [c [rest [-> Hm]]].
  rewrite (content_line_header c rest Hm). apply orb_true_iff.
Qed.

Lemma X2_witness :
  is_content (lit "-- a comment in SQL") = true
  /\ is_kept (lit "-- a comment in SQL") = true
  /\ is_content (lit "--- a removed comment") = true
  /\ is_kept (lit "--- a removed comment") = false.
Proof.
  split; [reflexivity|]. split; [reflexivity|].
  assert (Hc : is_content (lit "--- a removed comment") = true) by reflexivity.
  split; [exact Hc|].
  apply (X2_content_line_lost_iff_dashes (lit "--- a removed comment") Hc).
  left. reflexivity.
Defined.

Lemma split_join_lines (lines : list str) :
  lines <> [] -> Forall (fun line => ~ In LF line) lines ->
  split_lines (join_lines lines) = lines.
Proof.
  induction lines as [|line more IH]; [congruence|]. intros _ HF.
  inversion HF as [|x l Hx Hl]; subst. destruct more as [|l2 more].
  - simpl. now apply split_lines_single.
  - rewrite join_lines_cons by discriminate.
    rewrite split_lines_app, (split_lines_single line Hx).
    rewrite IH; [reflexivity|discriminate|assumption].
Qed.

Lemma cleaned_lines_no_LF (diff : str) :
  Forall (fun line => ~ In LF line) (cleaned_lines_of diff).
Proof.
  rewrite cleaned_lines_of_spec. apply Forall_forall. intros l Hin.
  apply in_map_iff in Hin as [line [<- Hin]].
  apply filter_In in Hin as [Hin _].
  pose proof (split_lines_no_LF diff line Hin) as H.
  intros X. apply H. destruct line; [destruct X|now right].
Qed.

(** X3.  Joining loses nothing: when some line survives, splitting the
    cleaned diff at its line feeds gives back the cleaned lines, none of
    which holds a line feed. *)
Theorem X3_cleaned_diff_splits_back (diff : str) :
  cleaned_lines_of diff <> [] ->
  split_lines (cleaned_diff_of diff) = cleaned_lines_of diff
  /\ Forall (fun line => ~ In LF line) (cleaned_lines_of diff).
Proof.
  intros NE. split; [|apply cleaned_lines_no_LF].
  unfold cleaned_diff_of. apply split_join_lines; [exact NE|].
  apply cleaned_lines_no_LF.
Qed.

Lemma X3_witness :
  cleaned_lines_of small_diff = [lit "old line"; lit "new line"]
  /\ split_lines (cleaned_diff_of small_diff) = [lit "old line"; lit "new line"].
Proof.
  assert (E : cleaned_lines_of small_diff = [lit "old line"; lit "new line"])
    by (vm_compute; reflexivity).
  split; [exact E|]. rewrite <- E.
  apply (X3_cleaned_diff_splits_back small_diff). rewrite E. discriminate.
Defined.

Lemma list_sum_cons (n : nat) (l : list nat) :
  list_sum (n :: l) = (n + list_sum l)%nat.
Proof. reflexivity. Qed.

(** The characters of a list of lines, counting one line feed after each. *)
Lemma join_lines_length (lines : list str) :
  lines <> [] ->
  S (List.length (join_lines lines)) =
  list_sum (List.map (fun line => S (List.length line)) lines).
Proof.
  induction lines as [|line more IH]; [congruence|]. intros _.
  destruct more as [|l2 more].
  - simpl. lia.
  - rewrite join_lines_cons by discriminate.
    rewrite length_app. cbn [List.length List.map].
    specialize (IH ltac:(discriminate)). cbn [List.map] in IH.
    rewrite !list_sum_cons in *. lia.
Qed.

Lemma kept_lines_measure (lines : list str) :
  (list_sum (List.map (fun line => S (List.length line))
       (List.map drop_first (List.filter is_kept lines)))
   + List.length (List.map drop_first (List.filter is_kept lines))
   <= list_sum (List.map (fun line => S (List.length line)) lines))%nat.
Proof.
  induction lines as [|line lines IH]; [simpl; lia|].
  cbn [List.filter List.map]. rewrite list_sum_cons.
  destruct (is_kept line) eqn:E; [|lia].
  unfold is_kept in E. apply andb_true_iff in E as [_ E].
  apply is_content_iff in E as [c [rest [-> _]]].
  cbn [List.map List.length drop_first tl]. rewrite list_sum_cons. lia.
Qed.

(** X4.  Cleaning never lengthens the text: the cleaned diff, plus one
    character for every surviving line, is no longer than the diff. *)
Theorem X4_cleaning_shortens (diff : str) :
  (List.length (cleaned_diff_of diff) + List.length (cleaned_lines_of diff)
   <= List.length diff)%nat.
Proof.
  unfold cleaned_diff_of.
  destruct (cleaned_lines_of diff) as [|l ls] eqn:E; [simpl; lia|].
  pose proof (join_lines_length (l :: ls) ltac:(discriminate)) as J.
  pose proof (join_lines_length (split_lines diff) (split_lines_not_nil diff)) as D.
  rewrite join_split_lines in D.
  pose proof (kept_lines_measure (split_lines diff)) as K.
  rewrite <- cleaned_lines_of_spec, E in K. lia.
Qed.

(** ** More on message generation *)

Lemma generate_empty (lower : str -> str) (w : env) :
  generate_commit_message lower [] w = ([], Ret None).
Proof. reflexivity. Qed.

(** The three ways [generate_commit_message] ends. *)
Lemma generate_cases (lower : str -> str) (w : env) (diff : str) :
  (diff = [] /\ generate_commit_message lower diff w = ([], Ret None))
  \/ (diff <> [] /\ cleaned_lines_of diff = []
      /\ generate_commit_message lower diff w = ([], Ret (Some default_message)))
  \/ (diff <> [] /\ cleaned_lines_of diff <> []
      /\ generate_commit_message lower diff w =
         ([Print msg_generating; Summarize (prompt_of (truncated_diff_of diff))],
          Ret (Some (format_message lower
                       (summarizer w (prompt_of (truncated_diff_of diff))))))).
Proof.
  destruct diff as [|c diff]; [left; now split|right].
  destruct (cleaned_lines_of (c :: diff)) as [|l ls] eqn:E.
  - left. split; [discriminate|]. split; [reflexivity|].
    apply generate_default; [discriminate|exact E].
  - right. split; [discriminate|]. split; [discriminate|].
    apply generate_summarizes. congruence.
Qed.

(** X5.  Whatever the diff, a prompt handed to the summarizer is the
    instruction followed by the first 2000 characters of the cleaned diff:
    it is never longer than the instruction plus 2000 characters, and a
    cleaned diff of at most 2000 characters is forwarded whole. *)
Theorem X5_prompt_is_bounded
    (lower : str -> str) (w : env) (diff prompt : str) :
  In prompt (prompts (fst (generate_commit_message lower diff w))) ->
  prompt = instruction ++ List.firstn 2000 (cleaned_diff_of diff)
  /\ (List.length prompt <= List.length instruction + 2000)%nat
  /\ ((List.length (cleaned_diff_of diff) <= 2000)%nat ->
      prompt = instruction ++ cleaned_diff_of diff).
Proof.
  intros Hin.
  destruct (generate_cases lower w diff)
    as [[_ E]|[[_ [_ E]]|[_ [_ E]]]]; rewrite E in Hin;
    cbn [fst prompts In] in Hin; try contradiction.
  destruct Hin as [<-|[]].
  unfold prompt_of, truncated_diff_of, take, max_length.
  split; [reflexivity|]. split.
  - rewrite length_app, length_firstn. lia.
  - intros L. now rewrite firstn_all2.
Qed.

Lemma X5_witness :
  let w := world small_diff (lit "Replace old line") None None in
  let prompt := instruction ++ lit "old line" ++ LF :: lit "new line" in
  In prompt (prompts (fst (generate_commit_message ascii_lower small_diff w)))
  /\ prompt = instruction ++ cleaned_diff_of small_diff.
Proof.
  intros w prompt.
  assert (H : In prompt
                (prompts (fst (generate_commit_message ascii_lower small_diff w))))
    by (vm_compute; left; reflexivity).
  split; [exact H|].
  destruct (X5_prompt_is_bounded ascii_lower w small_diff prompt H) as [_ [_ E]].
  apply E. vm_compute. lia.
Defined.


(** X7.  The default message depends on there being no surviving line, not
    on the cleaned text being empty: when a line survives and the cleaned
    diff is empty all the same (a bare marker), the summarizer is called,
    on the instruction alone. *)
Theorem X7_bare_marker_is_summarized
    (lower : str -> str) (w : env) (diff : str) :
  cleaned_lines_of diff <> [] ->
  cleaned_diff_of diff = [] ->
  generate_commit_message lower diff w =
    ([Print msg_generating; Summarize instruction],
     Ret (Some (format_message lower (summarizer w instruction)))).
Proof.
  intros NE E. rewrite (generate_summarizes lower w diff NE).
  unfold prompt_of, truncated_diff_of, take. rewrite E.
  cbn [firstn max_length]. now rewrite app_nil_r.
Qed.

Lemma X7_witness :
  let diff := lit "@@ -3 +3,2 @@" ++ LF :: lit "+" in
  cleaned_lines_of diff = [[]]
  /\ prompts (fst (generate_commit_message ascii_lower diff
                     (world diff (lit "Add a blank line") None None))) =
     [instruction].
Proof.
  intros diff.
  assert (E : cleaned_lines_of diff = [[]]) by (vm_compute; reflexivity).
  split; [exact E|].
  rewrite (X7_bare_marker_is_summarized ascii_lower
             (world diff (lit "Add a blank line") None None) diff).
  - reflexivity.
  - rewrite E. discriminate.
  - unfold cleaned_diff_of. now rewrite E.
Defined.

(** ** More on the formatter *)

Lemma lstrip_all_space (s : str) :
  Forall (fun c => isspace c = true) s -> lstrip s = [].
Proof.
  induction 1 as [|c s Hc _ IH]; [reflexivity|].
  simpl. now rewrite Hc.
Qed.

Lemma strip_all_space (s : str) :
  Forall (fun c => isspace c = true) s -> strip s = [].
Proof. intros H. unfold strip. now rewrite (lstrip_all_space s H). Qed.

Section FormatterEdges.

Variable lower : str -> str.

(** Two facts about [str.lower()]: the empty string is left empty, and the
    ASCII text ["feat: "] in front is left as it is. *)
Hypothesis lower_nil : lower [] = [].
Hypothesis lower_feat :
  forall s, lower (lit "feat: " ++ s) = lit "feat: " ++ lower s.

(** X8.  A summary that is empty or all white space is formatted to the
    bare prefix ["feat: "], with its trailing space and no description. *)
Theorem X8_blank_summary_gives_bare_prefix (summary_text : str) :
  Forall (fun c => isspace c = true) summary_text ->
  format_message lower summary_text = lit "feat: ".
Proof.
  intros H. unfold format_message, has_prefix.
  rewrite (strip_all_space summary_text H), lower_nil.
  cbn [prefixes existsb startswith lit List.map list_ascii_of_string orb negb].
  now rewrite lower_feat, lower_nil.
Qed.

End FormatterEdges.

Lemma X8_witness :
  Forall (fun c => isspace c = true) [0x20%N; 0x09%N; LF]
  /\ format_message ascii_lower [0x20%N; 0x09%N; LF] = lit "feat: "
  /\ format_message ascii_lower (lit "feat: ") = lit "feat:".
Proof.
  assert (H : Forall (fun c => isspace c = true) [0x20%N; 0x09%N; LF])
    by (repeat constructor).
  split; [exact H|]. split; [|vm_compute; reflexivity].
  exact (X8_blank_summary_gives_bare_prefix ascii_lower eq_refl
           ascii_lower_feat [0x20%N; 0x09%N; LF] H).
Defined.

(** ** More on the command-line flow *)

Lemma is_choice_iff (action : option str) (choice : string) :
  is_choice action choice = true <-> action = Some (lit choice).
Proof.
  destruct action as [a|]; simpl; [|split; discriminate].
  rewrite eqb_eq. split; [now intros ->|now intros [= ->]].
Qed.

Lemma git_commit_command_inj (a b : str) :
  git_commit_command a = git_commit_command b -> a = b.
Proof.
  intros H. apply (f_equal (fun l => nth 3 l [])) in H. exact H.
Qed.

(** The confirmation step, by the answers it gets. *)
Lemma confirm_eq (message : str) (w : env) :
  confirm (Some message) w =
  if is_choice (select_answer w) "Yes" then
    (Select question_use choices :: fst (perform_commit message w),
     snd (perform_commit message w))
  else if is_choice (select_answer w) "Edit" then
    match text_answer w message with
    | Some ((_ :: _) as edited) =>
        (Select question_use choices :: TextPrompt question_edit message
           :: fst (perform_commit edited w),
         snd (perform_commit edited w))
    | _ =>
        ([Select question_use choices; TextPrompt question_edit message;
          Print msg_cancelled], Ret tt)
    end
  else ([Select question_use choices; Print msg_cancelled], Ret tt).
Proof.
  unfold confirm, bind, questionary_select, as_str, questionary_text, print.
  destruct (is_choice (select_answer w) "Yes").
  - destruct (perform_commit message w) as [t o]. reflexivity.
  - destruct (is_choice (select_answer w) "Edit"); [|reflexivity].
    destruct (text_answer w message) as [[|c edited]|]; try reflexivity.
    destruct (perform_commit (c :: edited) w) as [t o]. reflexivity.
Qed.

(** The commit step runs its one command however it ends, and ends in one
    of three ways. *)
Lemma perform_commit_cases (message : str) (w : env) :
  perform_commit message w =
    ([Run (git_commit_command message); Print msg_commit_ok], Ret tt)
  \/ perform_commit message w =
       ([Run (git_commit_command message); Print msg_commit_failed],
        SysExit 1%Z)
  \/ perform_commit message w =
       ([Run (git_commit_command message)], Uncaught ExnFileNotFound).
Proof.
  rewrite perform_commit_run.
  destruct (subprocess w (git_commit_command message)); tauto.
Qed.

(** The three ways [main] goes: a failed fetch, an empty diff, or a
    generated message followed by the confirmation step. *)
Lemma main_cases (lower : str -> str) (w : env) :
  (exists text,
     (forall stdout, subprocess w git_diff_command <> Completed stdout)
     /\ main lower w = ([Run git_diff_command; Print text], SysExit 1%Z))
  \/ (subprocess w git_diff_command = Completed []
      /\ main lower w =
         ([Run git_diff_command; Print msg_no_staged], SysExit 0%Z))
  \/ (exists diff trace message,
        subprocess w git_diff_command = Completed diff
        /\ diff <> []
        /\ generate_commit_message lower diff w = (trace, Ret (Some message))
        /\ commands trace = []
        /\ (List.length (prompts trace) <= 1)%nat
        /\ main lower w =
           (Run git_diff_command :: trace ++
              Print msg_suggested :: Print (suggested (Some message)) ::
              Print msg_rule :: fst (confirm (Some message) w),
            snd (confirm (Some message) w))).
Proof.
  destruct (subprocess w git_diff_command) as [diff| |] eqn:Hf.
  - destruct diff as [|c diff].
    + right; left. split; [reflexivity|].
      unfold main, bind. rewrite get_staged_diff_run, Hf. reflexivity.
    + right; right.
      assert (NE : c :: diff <> []) by discriminate.
      destruct (generate_cases lower w (c :: diff))
        as [[E0 _]|[[_ [_ E]]|[_ [_ E]]]]; [congruence| |];
        do 3 eexists; (split; [reflexivity|]); (split; [exact NE|]);
        (split; [exact E|]); (split; [reflexivity|]);
        (split; [cbn; lia|]);
        apply (main_after_fetch lower w (c :: diff) _ _ Hf NE E).
  - left. exists msg_fetch_error. split; [discriminate|].
    rewrite main_fetch_failed by (rewrite Hf; discriminate).
    now rewrite get_staged_diff_run, Hf.
  - left. exists msg_no_git. split; [discriminate|].
    rewrite main_fetch_failed by (rewrite Hf; discriminate).
    now rewrite get_staged_diff_run, Hf.
Qed.

(** What [main] has run, printed and asked the summarizer once a message
    is generated, from what the confirmation step did. *)
Lemma main_trace_parts (lower : str -> str) (w : env) (diff : str)
    (trace : list event) (message : str) :
  subprocess w git_diff_command = Completed diff ->
  diff <> [] ->
  generate_commit_message lower diff w = (trace, Ret (Some message)) ->
  snd (main lower w) = snd (confirm (Some message) w)
  /\ commands (fst (main lower w)) =
     git_diff_command :: commands trace
       ++ commands (fst (confirm (Some message) w))
  /\ printed (fst (main lower w)) =
     (printed trace ++ [msg_suggested; suggested (Some message); msg_rule])
       ++ printed (fst (confirm (Some message) w))
  /\ prompts (fst (main lower w)) =
     prompts trace ++ prompts (fst (confirm (Some message) w)).
Proof.
  intros Hf NE Hg.
  rewrite (main_after_fetch lower w diff trace message Hf NE Hg).
  cbn [fst snd commands printed prompts].
  rewrite commands_app, printed_app, prompts_app.
  cbn [commands printed prompts]. rewrite <- app_assoc.
  repeat split.
Qed.

Lemma perform_commit_commands (message : str) (w : env) :
  commands (fst (perform_commit message w)) = [git_commit_command message]
  /\ prompts (fst (perform_commit message w)) = [].
Proof.
  destruct (perform_commit_cases message w) as [E|[E|E]]; rewrite E;
    split; reflexivity.
Qed.

(** The commands of the confirmation step. *)
Lemma confirm_commands (message : str) (w : env) :
  commands (fst (confirm (Some message) w)) =
  if is_choice (select_answer w) "Yes" then [git_commit_command message]
  else if is_choice (select_answer w) "Edit" then
    match text_answer w message with
    | Some ((_ :: _) as edited) => [git_commit_command edited]
    | _ => []
    end
  else [].
Proof.
  rewrite confirm_eq.
  destruct (is_choice (select_answer w) "Yes").
  - cbn [fst commands]. apply perform_commit_commands.
  - destruct (is_choice (select_answer w) "Edit"); [|reflexivity].
    destruct (text_answer w message) as [[|c e]|]; try reflexivity.
    cbn [fst commands]. apply perform_commit_commands.
Qed.

Lemma confirm_prompts (message : str) (w : env) :
  prompts (fst (confirm (Some message) w)) = [].
Proof.
  rewrite confirm_eq.
  destruct (is_choice (select_answer w) "Yes").
  - cbn [fst prompts]. apply perform_commit_commands.
  - destruct (is_choice (select_answer w) "Edit"); [|reflexivity].
    destruct (text_answer w message) as [[|c e]|]; try reflexivity.
    cbn [fst prompts]. apply perform_commit_commands.
Qed.

(** X9.  No commit without confirmation: when [main] runs a commit
    command, the fetch gave a non-empty diff and either the user answered
    "Yes" and the message is the generated one, or the user answered "Edit"
    and the message is the non-empty text submitted in the edit prompt. *)
Theorem X9_commit_needs_confirmation
    (lower : str -> str) (w : env) (message : str) :
  In (Run (git_commit_command message)) (fst (main lower w)) ->
  exists diff generated,
    subprocess w git_diff_command = Completed diff
    /\ diff <> []
    /\ snd (generate_commit_message lower diff w) = Ret (Some generated)
    /\ ((select_answer w = Some (lit "Yes") /\ message = generated)
        \/ (select_answer w = Some (lit "Edit")
            /\ text_answer w generated = Some message /\ message <> [])).
Proof.
  intros Hin. apply in_commands in Hin.
  destruct (main_cases lower w)
    as [[text [_ E]]|[[_ E]|[diff [tg [m [Hf [NE [Hg [Ct [_ _]]]]]]]]]].
  - rewrite E in Hin. cbn [fst commands In] in Hin. destruct Hin as [X|[]].
    symmetry in X. now apply commit_is_not_diff in X.
  - rewrite E in Hin. cbn [fst commands In] in Hin. destruct Hin as [X|[]].
    symmetry in X. now apply commit_is_not_diff in X.
  - destruct (main_trace_parts lower w diff tg m Hf NE Hg) as [_ [Cm _]].
    rewrite Cm, Ct, confirm_commands in Hin. cbn [app In] in Hin.
    destruct Hin as [X|Hin];
      [symmetry in X; now apply commit_is_not_diff in X|].
    exists diff, m. split; [exact Hf|]. split; [exact NE|].
    split; [now rewrite Hg|].
    destruct (is_choice (select_answer w) "Yes") eqn:Y.
    + apply is_choice_iff in Y. left. split; [exact Y|].
      destruct Hin as [X|[]]. now apply git_commit_command_inj in X.
    + destruct (is_choice (select_answer w) "Edit") eqn:Ed; [|destruct Hin].
      apply is_choice_iff in Ed. right. split; [exact Ed|].
      destruct (text_answer w m) as [[|c e]|];
        [destruct Hin|destruct Hin as [X|[]]|destruct Hin].
      apply git_commit_command_inj in X. subst message.
      split; [reflexivity|discriminate].
Qed.

Lemma X9_witness :
  let w := world small_diff (lit "Replace old line") (Some (lit "Yes")) None in
  In (Run (git_commit_command (lit "feat: replace old line")))
     (fst (main ascii_lower w))
  /\ exists diff generated,
       subprocess w git_diff_command = Completed diff
       /\ diff <> []
       /\ snd (generate_commit_message ascii_lower diff w) = Ret (Some generated)
       /\ ((select_answer w = Some (lit "Yes")
            /\ lit "feat: replace old line" = generated)
           \/ (select_answer w = Some (lit "Edit")
               /\ text_answer w generated = Some (lit "feat: replace old line")
               /\ lit "feat: replace old line" <> [])).
Proof.
  intros w.
  assert (H : In (Run (git_commit_command (lit "feat: replace old line")))
                (fst (main ascii_lower w))).
  { vm_compute. do 7 right. left. reflexivity. }
  split; [exact H|].
  exact (X9_commit_needs_confirmation ascii_lower w
           (lit "feat: replace old line") H).
Defined.

(** X10.  The exit status of the process is always 0 or 1, and [main]
    never hands [None] to the commit or to the edit prompt: the one
    uncaught exception it can end in is the missing git executable at
    commit time. *)
Theorem X10_exit_code_is_0_or_1 (lower : str -> str) (w : env) :
  (exit_code (snd (main lower w)) = 0%Z \/ exit_code (snd (main lower w)) = 1%Z)
  /\ snd (main lower w) <> Uncaught ExnTypeError.
Proof.
  assert (P : forall e, (exit_code (snd (perform_commit e w)) = 0%Z
                         \/ exit_code (snd (perform_commit e w)) = 1%Z)
                        /\ snd (perform_commit e w) <> Uncaught ExnTypeError).
  { intros e. destruct (perform_commit_cases e w) as [E|[E|E]]; rewrite E;
      cbn [snd exit_code]; split; try tauto; discriminate. }
  destruct (main_cases lower w)
    as [[text [_ E]]|[[_ E]|[diff [tg [m [Hf [NE [Hg _]]]]]]]].
  - rewrite E. cbn [snd exit_code]. split; [tauto|discriminate].
  - rewrite E. cbn [snd exit_code]. split; [tauto|discriminate].
  - destruct (main_trace_parts lower w diff tg m Hf NE Hg) as [-> _].
    rewrite confirm_eq.
    destruct (is_choice (select_answer w) "Yes"); [apply P|].
    destruct (is_choice (select_answer w) "Edit");
      [|cbn [snd exit_code]; split; [tauto|discriminate]].
    destruct (text_answer w m) as [[|c e]|]; try apply P;
      cbn [snd exit_code]; split; try tauto; discriminate.
Qed.

(** X11.  [main] always starts by running the diff command; it runs at
    most one more command, a commit; and it calls the summarizer at most
    once. *)
Theorem X11_at_most_one_commit_and_summary (lower : str -> str) (w : env) :
  (exists rest, fst (main lower w) = Run git_diff_command :: rest)
  /\ (commands (fst (main lower w)) = [git_diff_command]
      \/ exists message,
           commands (fst (main lower w)) =
           [git_diff_command; git_commit_command message])
  /\ (List.length (prompts (fst (main lower w))) <= 1)%nat.
Proof.
  destruct (main_cases lower w)
    as [[text [_ E]]|[[_ E]|[diff [tg [m [Hf [NE [Hg [Ct [Pt E]]]]]]]]]].
  - rewrite E. cbn. split; [eauto|]. split; [now left|lia].
  - rewrite E. cbn. split; [eauto|]. split; [now left|lia].
  - split; [rewrite E; cbn [fst]; eauto|].
    destruct (main_trace_parts lower w diff tg m Hf NE Hg) as [_ [Cm [_ Pm]]].
    rewrite Cm, Pm, Ct, confirm_prompts, confirm_commands, app_nil_r.
    split; [|exact Pt]. cbn [app].
    destruct (is_choice (select_answer w) "Yes"); [right; eauto|].
    destruct (is_choice (select_answer w) "Edit"); [|now left].
    destruct (text_answer w m) as [[|c e]|]; [now left|right; eauto|now left].
Qed.

(** The last thing printed, when the confirmation step's prints end in
    [text]. *)
Lemma last_printed (lower : str -> str) (w : env) (diff : str)
    (trace : list event) (message : str) (before : list str) (text : str) :
  subprocess w git_diff_command = Completed diff ->
  diff <> [] ->
  generate_commit_message lower diff w = (trace, Ret (Some message)) ->
  printed (fst (confirm (Some message) w)) = before ++ [text] ->
  last (printed (fst (main lower w))) [] = text.
Proof.
  intros Hf NE Hg Hp.
  destruct (main_trace_parts lower w diff trace message Hf NE Hg)
    as [_ [_ [Pm _]]].
  rewrite Pm, Hp, app_assoc. apply last_last.
Qed.

(** X12.  When the user answers "Yes" and the commit succeeds, the message
    committed is the generated one, the one shown to the user before the
    prompt; the confirmation is the last thing printed and the process
    ends with status 0. *)
Theorem X12_accepted_message_is_committed
    (lower : str -> str) (w : env) (diff message stdout : str) :
  subprocess w git_diff_command = Completed diff ->
  diff <> [] ->
  snd (generate_commit_message lower diff w) = Ret (Some message) ->
  select_answer w = Some (lit "Yes") ->
  subprocess w (git_commit_command message) = Completed stdout ->
  snd (main lower w) = Ret tt
  /\ exit_code (snd (main lower w)) = 0%Z
  /\ commands (fst (main lower w)) =
     [git_diff_command; git_commit_command message]
  /\ In (suggested (Some message)) (printed (fst (main lower w)))
  /\ last (printed (fst (main lower w))) [] = msg_commit_ok.
Proof.
  intros Hf NE Hm Hy Hc.
  destruct (generate_shape lower w diff NE) as [tg [m [Hg [Ct _]]]].
  rewrite Hg in Hm. cbn [snd] in Hm. injection Hm as ->.
  apply is_choice_iff in Hy.
  assert (E : confirm (Some message) w =
              ([Select question_use choices; Run (git_commit_command message);
                Print msg_commit_ok], Ret tt)).
  { now rewrite confirm_eq, Hy, perform_commit_run, Hc. }
  destruct (main_trace_parts lower w diff tg message Hf NE Hg)
    as [Om [Cm [Pm _]]].
  rewrite Om, Cm, Ct, E. cbn [fst snd exit_code commands app].
  repeat split.
  - rewrite Pm. apply in_or_app. left. apply in_or_app. right.
    right. now left.
  - apply (last_printed lower w diff tg message [] msg_commit_ok Hf NE Hg).
    now rewrite E.
Qed.

Lemma X12_witness :
  let w := world small_diff (lit "Replace old line") (Some (lit "Yes")) None in
  exit_code (snd (main ascii_lower w)) = 0%Z
  /\ commands (fst (main ascii_lower w)) =
     [git_diff_command; git_commit_command (lit "feat: replace old line")].
Proof.
  intros w.
  assert (NE : small_diff <> []) by (vm_compute; discriminate).
  assert (G : snd (generate_commit_message ascii_lower small_diff w) =
              Ret (Some (lit "feat: replace old line")))
    by (vm_compute; reflexivity).
  destruct (X12_accepted_message_is_committed ascii_lower w small_diff
              (lit "feat: replace old line") [] eq_refl NE G eq_refl eq_refl)
    as [_ [X [C _]]].
  split; assumption.
Defined.

(** X13.  When the user answers "Edit", the edit prompt is pre-filled with
    the generated message, and a non-empty edited text is committed as it
    was submitted: it is neither trimmed nor given a prefix nor
    lower-cased. *)
Theorem X13_edited_text_is_committed_verbatim
    (lower : str -> str) (w : env) (diff message edited stdout : str) :
  subprocess w git_diff_command = Completed diff ->
  diff <> [] ->
  snd (generate_commit_message lower diff w) = Ret (Some message) ->
  select_answer w = Some (lit "Edit") ->
  text_answer w message = Some edited ->
  edited <> [] ->
  subprocess w (git_commit_command edited) = Completed stdout ->
  In (TextPrompt question_edit message) (fst (main lower w))
  /\ commands (fst (main lower w)) =
     [git_diff_command; git_commit_command edited]
  /\ snd (main lower w) = Ret tt
  /\ exit_code (snd (main lower w)) = 0%Z
  /\ last (printed (fst (main lower w))) [] = msg_commit_ok.
Proof.
  intros Hf NE Hm He Ht NEe Hc.
  destruct (generate_shape lower w diff NE) as [tg [m [Hg [Ct _]]]].
  rewrite Hg in Hm. cbn [snd] in Hm. injection Hm as ->.
  assert (E : confirm (Some message) w =
              ([Select question_use choices;
                TextPrompt question_edit message;
                Run (git_commit_command edited);
                Print msg_commit_ok], Ret tt)).
  { rewrite confirm_eq, He, Ht.
    change (is_choice (Some (lit "Edit")) "Yes") with false.
    change (is_choice (Some (lit "Edit")) "Edit") with true. cbn iota.
    destruct edited as [|c e]; [congruence|].
    now rewrite perform_commit_run, Hc. }
  destruct (main_trace_parts lower w diff tg message Hf NE Hg)
    as [Om [Cm _]].
  rewrite Om, Cm, Ct, E. cbn [fst snd exit_code commands app].
  split; [|repeat split].
  - rewrite (main_after_fetch lower w diff tg message Hf NE Hg), E.
    cbn [fst]. right. apply in_or_app. right. do 4 right. now left.
  - apply (last_printed lower w diff tg message [] msg_commit_ok Hf NE Hg).
    now rewrite E.
Qed.

Lemma X13_witness :
  let edited := lit "  WIP: Try Again " in
  let w := world small_diff (lit "Replace old line") (Some (lit "Edit"))
             (Some edited) in
  edited <> []
  /\ commands (fst (main ascii_lower w)) =
     [git_diff_command; git_commit_command edited]
  /\ In (TextPrompt question_edit (lit "feat: replace old line"))
        (fst (main ascii_lower w)).
Proof.
  intros edited w.
  assert (NEe : edited <> []) by (vm_compute; discriminate).
  assert (NE : small_diff <> []) by (vm_compute; discriminate).
  split; [exact NEe|].
  assert (G : snd (generate_commit_message ascii_lower small_diff w) =
              Ret (Some (lit "feat: replace old line")))
    by (vm_compute; reflexivity).
  destruct (X13_edited_text_is_committed_verbatim ascii_lower w small_diff
              (lit "feat: replace old line") edited [] eq_refl NE G
              eq_refl eq_refl NEe eq_refl)
    as [T [C _]].
  split; assumption.
Defined.

(** X14.  Only the exact answers "Yes" and "Edit" lead to a commit: any
    other answer, an aborted prompt included, and an aborted edit prompt
    cancel like "No" does.  The notice is the last thing printed, [main]
    returns normally and only the diff command has been run. *)
Theorem X14_other_answers_cancel
    (lower : str -> str) (w : env) (diff message : str) :
  subprocess w git_diff_command = Completed diff ->
  diff <> [] ->
  snd (generate_commit_message lower diff w) = Ret (Some message) ->
  (select_answer w <> Some (lit "Yes") /\ select_answer w <> Some (lit "Edit"))
  \/ (select_answer w = Some (lit "Edit") /\ text_answer w message = None) ->
  snd (main lower w) = Ret tt
  /\ exit_code (snd (main lower w)) = 0%Z
  /\ commands (fst (main lower w)) = [git_diff_command]
  /\ last (printed (fst (main lower w))) [] = msg_cancelled.
Proof.
  intros Hf NE Hm Hc.
  destruct (generate_shape lower w diff NE) as [tg [m [Hg [Ct _]]]].
  rewrite Hg in Hm. cbn [snd] in Hm. injection Hm as ->.
  assert (E : exists shown,
            confirm (Some message) w = (shown ++ [Print msg_cancelled], Ret tt)
            /\ commands shown = [] /\ printed shown = []).
  { rewrite confirm_eq. destruct Hc as [[Hy He]|[He Ht]].
    - destruct (is_choice (select_answer w) "Yes") eqn:Y;
        [apply is_choice_iff in Y; contradiction|].
      destruct (is_choice (select_answer w) "Edit") eqn:Ed;
        [apply is_choice_iff in Ed; contradiction|].
      exists [Select question_use choices]. repeat split.
    - rewrite He, Ht.
      exists [Select question_use choices; TextPrompt question_edit message].
      repeat split. }
  destruct E as [shown [E [Cs Ps]]].
  destruct (main_trace_parts lower w diff tg message Hf NE Hg)
    as [Om [Cm _]].
  rewrite Om, Cm, Ct, E. cbn [fst snd exit_code app].
  rewrite commands_app, Cs. repeat split.
  apply (last_printed lower w diff tg message [] msg_cancelled Hf NE Hg).
  rewrite E. cbn [fst]. now rewrite printed_app, Ps.
Qed.

Lemma X14_witness :
  let aborted := world small_diff (lit "Replace old line") None None in
  let lowercase :=
    world small_diff (lit "Replace old line") (Some (lit "yes")) None in
  commands (fst (main ascii_lower aborted)) = [git_diff_command]
  /\ commands (fst (main ascii_lower lowercase)) = [git_diff_command].
Proof.
  intros aborted lowercase.
  assert (NE : small_diff <> []) by (vm_compute; discriminate).
  assert (G : forall w, summarizer w = (fun _ => lit "Replace old line") ->
                snd (generate_commit_message ascii_lower small_diff w) =
                Ret (Some (lit "feat: replace old line"))).
  { intros w Hs. rewrite (generate_summarizes ascii_lower w small_diff)
      by (vm_compute; discriminate).
    cbn [snd]. rewrite Hs. vm_compute. reflexivity. }
  destruct (X14_other_answers_cancel ascii_lower aborted small_diff
              (lit "feat: replace old line") eq_refl NE (G aborted eq_refl))
    as [_ [_ [C1 _]]].
  { left. split; discriminate. }
  destruct (X14_other_answers_cancel ascii_lower lowercase small_diff
              (lit "feat: replace old line") eq_refl NE (G lowercase eq_refl))
    as [_ [_ [C2 _]]].
  { left. split; intros H; vm_compute in H; discriminate H. }
  split; assumption.
Defined.

(** X15.  A git executable that is missing when the commit is made is not
    handled as it is at the fetch: the exception is not caught, nothing is
    printed after the commit command has been tried, and the process ends
    with status 1. *)
Theorem X15_missing_git_at_commit_is_uncaught
    (lower : str -> str) (w : env) (diff message : str) :
  subprocess w git_diff_command = Completed diff ->
  diff <> [] ->
  snd (generate_commit_message lower diff w) = Ret (Some message) ->
  select_answer w = Some (lit "Yes") ->
  subprocess w (git_commit_command message) = FileNotFoundError ->
  perform_commit message w =
    ([Run (git_commit_command message)], Uncaught ExnFileNotFound)
  /\ snd (main lower w) = Uncaught ExnFileNotFound
  /\ exit_code (snd (main lower w)) = 1%Z
  /\ last (fst (main lower w)) (Print []) = Run (git_commit_command message).
Proof.
  intros Hf NE Hm Hy Hc.
  destruct (generate_shape lower w diff NE) as [tg [m [Hg _]]].
  rewrite Hg in Hm. cbn [snd] in Hm. injection Hm as ->.
  apply is_choice_iff in Hy.
  assert (P : perform_commit message w =
              ([Run (git_commit_command message)], Uncaught ExnFileNotFound))
    by now rewrite perform_commit_run, Hc.
  split; [exact P|].
  rewrite (main_after_fetch lower w diff tg message Hf NE Hg).
  rewrite confirm_eq, Hy, P. cbn [fst snd exit_code].
  repeat split.
  change (Run git_diff_command :: tg ++
            Print msg_suggested :: Print (suggested (Some message)) ::
            Print msg_rule :: Select question_use choices ::
            [Run (git_commit_command message)])
    with ((Run git_diff_command :: tg) ++
            [Print msg_suggested; Print (suggested (Some message));
             Print msg_rule; Select question_use choices] ++
            [Run (git_commit_command message)]).
  rewrite app_assoc. apply last_last.
Qed.

Lemma X15_witness :
  let w := failing_world (Completed small_diff) FileNotFoundError
             (lit "Replace old line") (Some (lit "Yes")) in
  snd (main ascii_lower w) = Uncaught ExnFileNotFound
  /\ exit_code (snd (main ascii_lower w)) = 1%Z
  /\ printed (fst (main ascii_lower w)) =
     [msg_generating; msg_suggested;
      suggested (Some (lit "feat: replace old line")); msg_rule].
Proof.
  intros w.
  assert (NE : small_diff <> []) by (vm_compute; discriminate).
  assert (G : snd (generate_commit_message ascii_lower small_diff w) =
              Ret (Some (lit "feat: replace old line")))
    by (vm_compute; reflexivity).
  destruct (X15_missing_git_at_commit_is_uncaught ascii_lower w small_diff
              (lit "feat: replace old line") eq_refl NE G eq_refl eq_refl)
    as [_ [O [X _]]].
  split; [exact O|]. split; [exact X|]. vm_compute. reflexivity.
Defined.
